(** * roadtemplates: the [TemplateService] scaffold

    A shallow embedding of [src/types.ts] and of the client class
    [TemplateService] (one nullable field, [init] and [health]), followed by
    the properties of the service handle. *)

From Stdlib Require Import String List ZArith Bool.
From Stdlib Require Import Floats.SpecFloat.
Import ListNotations.
Open Scope string_scope.

(** ** [src/types.ts] *)

(** A TypeScript [number] is an IEEE 754 binary64 value. *)
Definition number : Type := spec_float.

(** The number denoted by an integer literal such as [5000]. *)
Definition number_of_Z (z : Z) : number :=
  match z with
  | Z0 => S754_zero false
  | Zpos m => binary_round 53 1024 false m 0
  | Zneg m => binary_round 53 1024 true m 0
  end.

(** [interface TemplateConfig { endpoint: string; timeout: number; }] *)
Record TemplateConfig : Type := {
  endpoint : string;
  timeout : number
}.

(** [interface TemplateResponse<T> { success: boolean; data?: T; error?: string; }]
    Declared next to [TemplateConfig]; the client never builds or reads one. *)
Record TemplateResponse (T : Type) : Type := {
  success : bool;
  data : option T;
  error : option string
}.

(** ** The client class *)

(** [private config: TemplateConfig | null]: the only field of an instance.
    [None] is [null]. *)
Record TemplateService : Type := {
  config : option TemplateConfig
}.

(** [new TemplateService()]: the field initialiser [= null] runs. *)
Definition new_TemplateService : TemplateService := {| config := None |}.

(** [export default new TemplateService()] *)
Definition default_export : TemplateService := new_TemplateService.

(** *** Awaited calls

    Both methods are [async]: a call yields a promise that settles either
    fulfilled with a value or rejected with a reason.  Neither body awaits
    anything, so the body runs to completion at the call, against the
    instance [this].  [Async A] is the method body as a function from the
    instance before the call to the settled promise and the instance after
    it. *)
Module Promise.

Inductive Settled (A : Type) : Type :=
| Fulfilled (value : A)
| Rejected (reason : string).
Arguments Fulfilled {A} value.
Arguments Rejected {A} reason.

Definition Async (A : Type) : Type :=
  TemplateService -> Settled A * TemplateService.

(** [return a] in an [async] body. *)
Definition ret {A : Type} (a : A) : Async A :=
  fun this => (Fulfilled a, this).

(** [const a = await m; k a]: a rejection of [m] is rethrown, and the rest
    does not run. *)
Definition bind {A B : Type} (m : Async A) (k : A -> Async B) : Async B :=
  fun this =>
    match m this with
    | (Fulfilled a, this') => k a this'
    | (Rejected e, this') => (Rejected e, this')
    end.

(** Reading [this.config]. *)
Definition get_config : Async (option TemplateConfig) :=
  fun this => (Fulfilled (config this), this).

(** The assignment [this.config = v]. *)
Definition set_config (v : option TemplateConfig) : Async unit :=
  fun _ => (Fulfilled tt, {| config := v |}).

Definition settled {A : Type} (r : Settled A * TemplateService) : Settled A :=
  fst r.
Definition instance {A : Type} (r : Settled A * TemplateService)
  : TemplateService := snd r.

End Promise.
Import Promise.

Declare Scope async_scope.
Delimit Scope async_scope with async.
Notation "x <- m ;; k" := (bind m (fun x => k))
  (at level 61, m at next level, right associativity) : async_scope.
Notation "m ;; k" := (bind m (fun _ => k))
  (at level 61, right associativity) : async_scope.
Open Scope async_scope.

(** [v !== null] for a value of type [TemplateConfig | null]. *)
Definition strict_neq_null (v : option TemplateConfig) : bool :=
  match v with
  | None => false
  | Some _ => true
  end.

(** [async init(config: TemplateConfig): Promise<void> { this.config = config; }] *)
Definition init (cfg : TemplateConfig) : Async unit :=
  set_config (Some cfg).

(** [async health(): Promise<boolean> { return this.config !== null; }] *)
Definition health : Async bool :=
  c <- get_config ;;
  ret (strict_neq_null c).

(** ** Client programs

    A client of the class can do two things with a handle: call [init] with
    some configuration, or call [health].  A client program awaits a list of
    such calls in turn and collects what each one returned. *)

Inductive Call : Type :=
| CallInit (cfg : TemplateConfig)
| CallHealth.

Inductive Returned : Type :=
| RetVoid
| RetBool (b : bool).

(** [await svc.init(cfg)] or [await svc.health()]. *)
Definition perform (c : Call) : Async Returned :=
  match c with
  | CallInit cfg => init cfg ;; ret RetVoid
  | CallHealth => b <- health ;; ret (RetBool b)
  end.

Fixpoint perform_all (cs : list Call) : Async (list Returned) :=
  match cs with
  | [] => ret []
  | c :: cs' =>
      r <- perform c ;;
      rs <- perform_all cs' ;;
      ret (r :: rs)
  end.

(** The configurations the test suite and the scenarios use. *)

(** [{ endpoint: 'http://localhost', timeout: 5000 }] *)
Definition localhost_config : TemplateConfig :=
  {| endpoint := "http://localhost"; timeout := number_of_Z 5000 |}.

(** The degenerate record: empty endpoint, timeout [0]. *)
Definition degenerate_config : TemplateConfig :=
  {| endpoint := EmptyString; timeout := number_of_Z 0 |}.

(** A handle on which [init] has been called once, with the localhost
    configuration. *)
Definition localhost_handle : TemplateService :=
  instance (init localhost_config new_TemplateService).

(** *** Reading a client program

    What follows describes a program from the outside, for the statements
    about whole programs: which of its calls are [init] calls, the program
    with other configurations passed to them, and the results and the handle
    that the two method bodies lead to, call after call. *)

Definition is_init (c : Call) : bool :=
  match c with
  | CallInit _ => true
  | CallHealth => false
  end.

(** The call [c] with [f cfg] passed where [c] passes [cfg]. *)
Definition map_config (f : TemplateConfig -> TemplateConfig) (c : Call)
  : Call :=
  match c with
  | CallInit cfg => CallInit (f cfg)
  | CallHealth => CallHealth
  end.

(** The results of the calls [cs], [held] telling whether the handle holds a
    configuration when the first of them is made. *)
Fixpoint answers (held : bool) (cs : list Call) : list Returned :=
  match cs with
  | [] => []
  | CallInit _ :: cs' => RetVoid :: answers true cs'
  | CallHealth :: cs' => RetBool held :: answers held cs'
  end.

(** The handle the calls [cs] leave, made on [this]. *)
Fixpoint handle_after (cs : list Call) (this : TemplateService)
  : TemplateService :=
  match cs with
  | [] => this
  | CallInit cfg :: cs' => handle_after cs' {| config := Some cfg |}
  | CallHealth :: cs' => handle_after cs' this
  end.

(** ** What the two methods compute *)

Lemma init_unfold (cfg : TemplateConfig) (this : TemplateService) :
  init cfg this = (Fulfilled tt, {| config := Some cfg |}).
Proof. reflexivity. Qed.

Lemma health_unfold (this : TemplateService) :
  health this = (Fulfilled (strict_neq_null (config this)), this).
Proof. reflexivity. Qed.

Lemma bind_fulfilled {A B : Type} (m : Async A) (k : A -> Async B)
    (this this' : TemplateService) (a : A) :
  m this = (Fulfilled a, this') -> bind m k this = k a this'.
Proof. intros Hm. unfold bind. rewrite Hm. reflexivity. Qed.

Lemma health_true_iff (this : TemplateService) :
  settled (health this) = Fulfilled true <-> exists cfg, config this = Some cfg.
Proof.
  rewrite health_unfold. unfold settled. simpl.
  destruct (config this) as [cfg|]; simpl; split.
  - intros _. exists cfg. reflexivity.
  - reflexivity.
  - discriminate.
  - intros [cfg Hcfg]. discriminate Hcfg.
Qed.

Lemma perform_unfold (c : Call) (this : TemplateService) :
  perform c this =
    match c with
    | CallInit cfg => (Fulfilled RetVoid, {| config := Some cfg |})
    | CallHealth => (Fulfilled (RetBool (strict_neq_null (config this))), this)
    end.
Proof. destruct c; reflexivity. Qed.

(** One call on a handle that holds a configuration is fulfilled, does not
    answer [false], and leaves a handle that holds a configuration. *)
Lemma perform_initialized (c : Call) (this : TemplateService) :
  strict_neq_null (config this) = true ->
  exists r this',
    perform c this = (Fulfilled r, this') /\
    r <> RetBool false /\
    strict_neq_null (config this') = true.
Proof.
  intros Hinit. rewrite perform_unfold. destruct c as [cfg|].
  - exists RetVoid, {| config := Some cfg |}.
    repeat split. discriminate.
  - exists (RetBool (strict_neq_null (config this))), this.
    repeat split; [|exact Hinit].
    rewrite Hinit. discriminate.
Qed.

Lemma perform_all_initialized (cs : list Call) :
  forall this : TemplateService,
    strict_neq_null (config this) = true ->
    exists rs this',
      perform_all cs this = (Fulfilled rs, this') /\
      Forall (fun r => r <> RetBool false) rs /\
      strict_neq_null (config this') = true.
Proof.
  induction cs as [|c cs IH]; intros this Hinit.
  - exists [], this. repeat split; [constructor | exact Hinit].
  - destruct (perform_initialized c this Hinit) as (r & this1 & Hc & Hr & H1).
    destruct (IH this1 H1) as (rs & this2 & Hcs & Hrs & H2).
    exists (r :: rs), this2. repeat split.
    + cbn [perform_all].
      rewrite (bind_fulfilled _ _ _ _ _ Hc).
      rewrite (bind_fulfilled _ _ _ _ _ Hcs).
      reflexivity.
    + constructor; assumption.
    + exact H2.
Qed.

Lemma config_neq : localhost_config <> degenerate_config.
Proof. intros H. discriminate H. Qed.

(** The repository's test, [should initialize] (scenario B of the
    specification): a new handle, [init] with the localhost configuration,
    then [health] is expected to be [true]. *)
Example test_should_initialize :
  settled ((init localhost_config ;; health) new_TemplateService)
  = Fulfilled true.
Proof. reflexivity. Qed.

(** ** Properties of the service handle *)

(** C1. For every configuration [c] and every handle, awaiting [init c] and
    then [health] is fulfilled with [true]. *)
Theorem init_then_health (c : TemplateConfig) (this : TemplateService) :
  settled ((init c ;; health) this) = Fulfilled true.
Proof.
  rewrite (bind_fulfilled _ _ _ _ _ (init_unfold c this)).
  rewrite health_unfold. reflexivity.
Qed.

(** C2. On a newly constructed handle, before any call to [init], [health]
    is fulfilled with [false] (scenario A); the same holds of the instance
    the module exports. *)
Theorem health_before_init :
  settled (health new_TemplateService) = Fulfilled false /\
  settled (health default_export) = Fulfilled false.
Proof. split; reflexivity. Qed.

(** C3. Once [health] answers [true] on a handle, every sequence of [init]
    and [health] calls on it is fulfilled, none of its [health] calls answers
    [false], and [health] answers [true] on the handle it leaves: there is no
    way back to the uninitialized state. *)
Theorem initialized_is_terminal (this : TemplateService) (cs : list Call) :
  settled (health this) = Fulfilled true ->
  exists rs,
    settled (perform_all cs this) = Fulfilled rs /\
    Forall (fun r => r <> RetBool false) rs /\
    settled (health (instance (perform_all cs this))) = Fulfilled true.
Proof.
  intros Hhealth.
  assert (Hinit : strict_neq_null (config this) = true).
  { rewrite health_unfold in Hhealth. unfold settled in Hhealth.
    simpl in Hhealth. injection Hhealth as Hb. exact Hb. }
  destruct (perform_all_initialized cs this Hinit) as (rs & this' & Hrun & Hrs & H').
  exists rs. rewrite Hrun. unfold settled, instance. simpl.
  repeat split; [exact Hrs|]. rewrite H'. reflexivity.
Qed.

Lemma initialized_is_terminal_witness :
  settled (health localhost_handle) = Fulfilled true /\
  exists rs,
    settled (perform_all [CallHealth; CallInit degenerate_config; CallHealth]
               localhost_handle) = Fulfilled rs /\
    Forall (fun r => r <> RetBool false) rs /\
    settled (health (instance
      (perform_all [CallHealth; CallInit degenerate_config; CallHealth]
         localhost_handle))) = Fulfilled true.
Proof.
  split; [reflexivity | apply initialized_is_terminal; reflexivity].
Defined.

(** C4, as the specification words it, fails: on the handle that holds the
    localhost configuration, [init] with the degenerate configuration
    replaces what is held. *)
Lemma init_replaces_held_config :
  config localhost_handle = Some localhost_config /\
  config (instance (perform (CallInit degenerate_config) localhost_handle))
  <> Some localhost_config.
Proof.
  split; [reflexivity|].
  intros H. discriminate H.
Qed.

(** C4, amended. On a handle that holds a configuration [c], every call
    leaves exactly one configuration held: [health] leaves [c], and
    [init c'] leaves its argument [c'], which is [c] only when [c' = c]. *)
Theorem held_config_after_call
    (this : TemplateService) (c : TemplateConfig) (op : Call) :
  config this = Some c ->
  config (instance (perform op this))
  = Some (match op with CallInit c' => c' | CallHealth => c end)
  /\ (config (instance (perform op this)) = Some c <->
      match op with CallInit c' => c' = c | CallHealth => True end).
Proof.
  intros Hheld. rewrite perform_unfold.
  destruct op as [c'|]; unfold instance; simpl.
  - split; [reflexivity|]. split.
    + intros H. injection H as H. exact H.
    + intros H. rewrite H. reflexivity.
  - split; [exact Hheld|]. split; [trivial | intros _; exact Hheld].
Qed.

Lemma held_config_after_call_witness :
  config localhost_handle = Some localhost_config /\
  (config (instance (perform (CallInit degenerate_config) localhost_handle))
   = Some degenerate_config
   /\ (config (instance (perform (CallInit degenerate_config) localhost_handle))
       = Some localhost_config <-> degenerate_config = localhost_config)).
Proof.
  split; [reflexivity|].
  apply (held_config_after_call localhost_handle localhost_config
           (CallInit degenerate_config)).
  reflexivity.
Defined.

(** C5. [init c] stores its argument as it is, whatever the handle held and
    whatever [c] is: the call is fulfilled, the handle then holds [c] itself,
    and so the same endpoint string and the same timeout number. *)
Theorem init_stores_as_is (c : TemplateConfig) (this : TemplateService) :
  settled (init c this) = Fulfilled tt /\
  config (instance (init c this)) = Some c /\
  option_map endpoint (config (instance (init c this))) = Some (endpoint c) /\
  option_map timeout (config (instance (init c this))) = Some (timeout c).
Proof.
  rewrite init_unfold. unfold settled, instance. simpl.
  repeat split.
Qed.

(** C6. Calling [init] twice, with two different configurations, raises
    nothing: both calls are fulfilled, and [health] answers [true] on the
    handle the second call leaves. *)
Theorem init_twice_then_health
    (c1 c2 : TemplateConfig) (this : TemplateService) :
  c1 <> c2 ->
  settled ((init c1 ;; init c2) this) = Fulfilled tt /\
  settled ((init c1 ;; init c2 ;; health) this) = Fulfilled true.
Proof.
  intros _.
  rewrite !(bind_fulfilled _ _ _ _ _ (init_unfold c1 this)).
  rewrite (bind_fulfilled _ _ _ _ _ (init_unfold c2 _)).
  rewrite init_unfold, health_unfold. split; reflexivity.
Qed.

Lemma init_twice_then_health_witness :
  localhost_config <> degenerate_config /\
  settled ((init localhost_config ;; init degenerate_config)
             new_TemplateService) = Fulfilled tt /\
  settled ((init localhost_config ;; init degenerate_config ;; health)
             new_TemplateService) = Fulfilled true.
Proof.
  split; [exact config_neq|].
  apply (init_twice_then_health localhost_config degenerate_config
           new_TemplateService).
  exact config_neq.
Defined.

(** C7. Scenario C: a new handle, [init] with the empty endpoint and the
    timeout [0], then [health]: nothing is rejected and the answer is
    [true]. *)
Theorem degenerate_config_accepted :
  endpoint degenerate_config = EmptyString /\
  timeout degenerate_config = S754_zero false /\
  settled (init degenerate_config new_TemplateService) = Fulfilled tt /\
  settled ((init degenerate_config ;; health) new_TemplateService)
  = Fulfilled true.
Proof. repeat split. Qed.

(** C8. Neither method can fail: for every configuration and every handle,
    [init] is fulfilled (with no value) and [health] is fulfilled with a
    boolean; the promise of neither is ever rejected. *)
Theorem init_and_health_cannot_fail
    (c : TemplateConfig) (this : TemplateService) :
  (exists this', init c this = (Fulfilled tt, this')) /\
  (exists b this', health this = (Fulfilled b, this')) /\
  (forall reason, settled (init c this) <> Rejected reason) /\
  (forall reason, settled (health this) <> Rejected reason).
Proof.
  rewrite init_unfold, health_unfold. unfold settled. simpl.
  repeat split.
  - eexists. reflexivity.
  - do 2 eexists. reflexivity.
  - intros reason H. discriminate H.
  - intros reason H. discriminate H.
Qed.

(** C9. [health] only reads: whatever the handle, the call leaves the whole
    instance, and so its [config] field, as it was. *)
Theorem health_is_pure_read (this : TemplateService) :
  instance (health this) = this /\
  config (instance (health this)) = config this.
Proof.
  rewrite health_unfold. unfold instance. simpl. split; reflexivity.
Qed.

(** C10. The last [init] wins: after [init c1] and then [init c2], on any
    handle, the configuration held is [c2]. *)
Theorem init_last_write_wins
    (c1 c2 : TemplateConfig) (this : TemplateService) :
  config (instance ((init c1 ;; init c2) this)) = Some c2.
Proof.
  rewrite (bind_fulfilled _ _ _ _ _ (init_unfold c1 this)).
  rewrite init_unfold. reflexivity.
Qed.

(** ** Whole client programs *)

Lemma perform_all_cons (c : Call) (cs : list Call)
    (this this1 this2 : TemplateService) (r : Returned) (rs : list Returned) :
  perform c this = (Fulfilled r, this1) ->
  perform_all cs this1 = (Fulfilled rs, this2) ->
  perform_all (c :: cs) this = (Fulfilled (r :: rs), this2).
Proof.
  intros Hc Hcs. cbn [perform_all].
  rewrite (bind_fulfilled _ _ _ _ _ Hc).
  rewrite (bind_fulfilled _ _ _ _ _ Hcs).
  reflexivity.
Qed.

(** Running a program is running the two method bodies call after call. *)
Lemma perform_all_unfold (cs : list Call) :
  forall this : TemplateService,
    perform_all cs this
    = (Fulfilled (answers (strict_neq_null (config this)) cs),
       handle_after cs this).
Proof.
  induction cs as [|c cs IH]; intros this.
  - reflexivity.
  - destruct c as [cfg|].
    + apply perform_all_cons with (this1 := {| config := Some cfg |}).
      * apply perform_unfold.
      * rewrite IH. reflexivity.
    + apply perform_all_cons with (this1 := this).
      * apply perform_unfold.
      * rewrite IH. reflexivity.
Qed.

Lemma answers_length (cs : list Call) :
  forall held, length (answers held cs) = length cs.
Proof.
  induction cs as [|[cfg|] cs IH]; intros held; simpl;
    [reflexivity | rewrite IH; reflexivity ..].
Qed.

Lemma answers_nth_init (cs : list Call) :
  forall held i cfg,
    nth_error cs i = Some (CallInit cfg) ->
    nth_error (answers held cs) i = Some RetVoid.
Proof.
  induction cs as [|c cs IH]; intros held i cfg Hi.
  - destruct i; discriminate Hi.
  - destruct i as [|i]; simpl in Hi.
    + injection Hi as ->. reflexivity.
    + destruct c; simpl; eapply IH; exact Hi.
Qed.

Lemma answers_nth_health (cs : list Call) :
  forall held i,
    nth_error cs i = Some CallHealth ->
    nth_error (answers held cs) i
    = Some (RetBool (held || existsb is_init (firstn i cs))).
Proof.
  induction cs as [|c cs IH]; intros held i Hi.
  - destruct i; discriminate Hi.
  - destruct i as [|i]; simpl in Hi.
    + injection Hi as ->. simpl. rewrite orb_false_r. reflexivity.
    + destruct c as [cfg|]; simpl.
      * rewrite (IH true i Hi). rewrite orb_true_r. reflexivity.
      * rewrite (IH held i Hi). reflexivity.
Qed.

Lemma answers_map_config (f : TemplateConfig -> TemplateConfig)
    (cs : list Call) :
  forall held, answers held (map (map_config f) cs) = answers held cs.
Proof.
  induction cs as [|[cfg|] cs IH]; intros held; simpl;
    [reflexivity | rewrite IH; reflexivity ..].
Qed.

Lemma handle_after_app (cs1 cs2 : list Call) :
  forall this,
    handle_after (cs1 ++ cs2) this = handle_after cs2 (handle_after cs1 this).
Proof.
  induction cs1 as [|[cfg|] cs1 IH]; intros this; simpl;
    [reflexivity | apply IH ..].
Qed.

Lemma handle_after_no_init (cs : list Call) :
  forall this, existsb is_init cs = false -> handle_after cs this = this.
Proof.
  induction cs as [|[cfg|] cs IH]; intros this Hno; simpl in *.
  - reflexivity.
  - discriminate Hno.
  - apply IH. exact Hno.
Qed.

Lemma handle_after_held (cs : list Call) :
  forall this,
    strict_neq_null (config (handle_after cs this))
    = strict_neq_null (config this) || existsb is_init cs.
Proof.
  induction cs as [|[cfg|] cs IH]; intros this; simpl.
  - rewrite orb_false_r. reflexivity.
  - rewrite IH. simpl. rewrite orb_true_r. reflexivity.
  - apply IH.
Qed.

Lemma answers_no_init (cs : list Call) :
  forall held,
    existsb is_init cs = false ->
    answers held cs = repeat (RetBool held) (length cs).
Proof.
  induction cs as [|[cfg|] cs IH]; intros held Hno; simpl in *.
  - reflexivity.
  - discriminate Hno.
  - rewrite (IH held Hno). reflexivity.
Qed.

Lemma has_init_iff (cs : list Call) :
  existsb is_init cs = true <-> exists cfg, In (CallInit cfg) cs.
Proof.
  rewrite existsb_exists. split.
  - intros ([cfg|] & Hin & His); [|discriminate His].
    exists cfg. exact Hin.
  - intros (cfg & Hin). exists (CallInit cfg). split; [exact Hin | reflexivity].
Qed.

(** X1. In any program, the configuration held at the end is the argument
    of its last [init] call: whatever was called before it and whatever the
    handle held at the start, and however many [health] calls follow. *)
Theorem last_init_is_held
    (pre post : list Call) (cfg : TemplateConfig) (this : TemplateService) :
  existsb is_init post = false ->
  config (instance (perform_all (pre ++ CallInit cfg :: post) this))
  = Some cfg.
Proof.
  intros Hpost. rewrite perform_all_unfold. unfold instance. simpl.
  rewrite handle_after_app. simpl.
  rewrite (handle_after_no_init post _ Hpost). reflexivity.
Qed.

Lemma last_init_is_held_witness :
  existsb is_init [CallHealth; CallHealth] = false /\
  config (instance (perform_all
    ([CallInit localhost_config; CallHealth]
     ++ CallInit degenerate_config :: [CallHealth; CallHealth])
    new_TemplateService))
  = Some degenerate_config.
Proof.
  split; [reflexivity|].
  apply (last_init_is_held [CallInit localhost_config; CallHealth]
           [CallHealth; CallHealth] degenerate_config new_TemplateService).
  reflexivity.
Defined.

(** X2. Every program is fulfilled on every handle, with one result per
    call: no value for an [init] call, and for a [health] call [true] exactly
    when the handle held a configuration at the start or an [init] call comes
    earlier in the program. *)
Theorem program_results (cs : list Call) (this : TemplateService) :
  exists rs,
    settled (perform_all cs this) = Fulfilled rs /\
    length rs = length cs /\
    (forall i cfg,
        nth_error cs i = Some (CallInit cfg) ->
        nth_error rs i = Some RetVoid) /\
    (forall i,
        nth_error cs i = Some CallHealth ->
        nth_error rs i
        = Some (RetBool (strict_neq_null (config this)
                         || existsb is_init (firstn i cs)))).
Proof.
  exists (answers (strict_neq_null (config this)) cs).
  rewrite perform_all_unfold. unfold settled. simpl.
  split; [reflexivity|]. split; [apply answers_length|]. split.
  - intros i cfg Hi. eapply answers_nth_init. exact Hi.
  - intros i Hi. apply answers_nth_health. exact Hi.
Qed.

(** X3. After a program, [health] answers [true] exactly when it answered
    [true] before the program or the program calls [init]: the initialized
    state is entered by [init] and by nothing else. *)
Theorem health_after_program (cs : list Call) (this : TemplateService) :
  settled (health (instance (perform_all cs this))) = Fulfilled true <->
  settled (health this) = Fulfilled true \/ exists cfg, In (CallInit cfg) cs.
Proof.
  rewrite perform_all_unfold. unfold instance. cbn [snd].
  rewrite !health_unfold. unfold settled. cbn [fst].
  rewrite handle_after_held, <- has_init_iff.
  destruct (strict_neq_null (config this)); simpl.
  - split; [intros _; left; reflexivity | reflexivity].
  - split.
    + intros H. injection H as H. right. exact H.
    + intros [H | H]; [discriminate H | rewrite H; reflexivity].
Qed.

(** X4. A program that never calls [init], however long, leaves the handle
    as it found it, and all its [health] calls give the one answer the
    handle gave at the start. *)
Theorem health_only_program (cs : list Call) (this : TemplateService) :
  existsb is_init cs = false ->
  perform_all cs this
  = (Fulfilled (repeat (RetBool (strict_neq_null (config this))) (length cs)),
     this).
Proof.
  intros Hno. rewrite perform_all_unfold.
  rewrite (answers_no_init cs _ Hno), (handle_after_no_init cs this Hno).
  reflexivity.
Qed.

Lemma health_only_program_witness :
  existsb is_init [CallHealth; CallHealth; CallHealth] = false /\
  perform_all [CallHealth; CallHealth; CallHealth] new_TemplateService
  = (Fulfilled
       (repeat (RetBool (strict_neq_null (config new_TemplateService)))
          (length [CallHealth; CallHealth; CallHealth])),
     new_TemplateService).
Proof.
  split; [reflexivity|].
  apply (health_only_program [CallHealth; CallHealth; CallHealth]
           new_TemplateService).
  reflexivity.
Defined.

(** X5. The results of a program do not depend on the contents of the
    configurations: on two handles that give the same [health] answer, a
    program and the same program with other configurations passed to its
    [init] calls collect the same results.  [health] never looks at the
    endpoint or the timeout. *)
Theorem results_ignore_config_contents
    (f : TemplateConfig -> TemplateConfig) (cs : list Call)
    (this this' : TemplateService) :
  settled (health this) = settled (health this') ->
  settled (perform_all (map (map_config f) cs) this')
  = settled (perform_all cs this).
Proof.
  intros Hsame. rewrite !perform_all_unfold.
  rewrite !health_unfold in Hsame. unfold settled in *. simpl in *.
  injection Hsame as Hsame.
  rewrite answers_map_config, Hsame. reflexivity.
Qed.

Lemma results_ignore_config_contents_witness :
  settled (health localhost_handle)
  = settled (health (instance (init degenerate_config new_TemplateService)))
  /\
  settled (perform_all
             (map (map_config (fun _ => degenerate_config))
                [CallHealth; CallInit localhost_config; CallHealth])
             (instance (init degenerate_config new_TemplateService)))
  = settled (perform_all [CallHealth; CallInit localhost_config; CallHealth]
               localhost_handle).
Proof.
  split; [reflexivity|].
  apply (results_ignore_config_contents (fun _ => degenerate_config)
           [CallHealth; CallInit localhost_config; CallHealth]
           localhost_handle
           (instance (init degenerate_config new_TemplateService))).
  reflexivity.
Defined.
